(** * WQI scoring engine of [wqi_app.py]

    Shallow embedding of the scoring functions of [wqi_app.py]
    ([calculate_sub_index], [calculate_wqi], [classify_wqi]), of the three
    shipped parameter tables and of the batch tab ([df.apply] over rows).

    Modelling choices:
    - a finite Python float is a rational number [Q]; a missing or NaN
      measurement ([pd.isna] true) is [None];
    - a Python dict is an association list searched from the front, so
      [d[k]] is the first binding of [k];
    - the exceptions the scoring code can raise are [KeyError] (a config dict
      without the looked-up key) and [ZeroDivisionError] (Python float
      division by a zero divisor); a computation returns [Ok] or [Err]. *)

From Stdlib Require Import Reals Lra.
From Stdlib Require Import QArith Qabs String List Bool Lia Lqa Permutation.
Import ListNotations.
Open Scope string_scope.
Open Scope Q_scope.

(** ** Exceptions and the error monad *)

Inductive exn : Type :=
| KeyError (k : string)
| ZeroDivisionError.

Inductive result (A : Type) : Type :=
| Ok (a : A)
| Err (e : exn).
Arguments Ok {A} a.
Arguments Err {A} e.

Definition bind {A B} (m : result A) (f : A -> result B) : result B :=
  match m with
  | Ok a => f a
  | Err e => Err e
  end.

Notation "x <- m ; k" := (bind m (fun x => k))
  (at level 61, m at next level, right associativity).

(** Python's [a / b] on numbers: raises when [b] is zero. *)
Definition pydiv (a b : Q) : result Q :=
  if Qeq_bool b 0 then Err ZeroDivisionError else Ok (a / b).

(** Python's [a < b] on numbers. *)
Definition Qlt_bool (a b : Q) : bool := negb (Qle_bool b a).

(** ** Data model *)

(** A parameter configuration, e.g. [{'weight': 0.001828, 'standard': 200}]. *)
Definition config := list (string * Q).

(** [config[key]]: first binding, or [KeyError]. *)
Fixpoint get_opt (c : config) (key : string) : option Q :=
  match c with
  | [] => None
  | (k, v) :: r => if String.eqb k key then Some v else get_opt r key
  end.

Definition get (c : config) (key : string) : result Q :=
  match get_opt c key with
  | Some v => Ok v
  | None => Err (KeyError key)
  end.

(** A parameter table: the dict [name -> config], in insertion order. *)
Definition params := list (string * config).

(** A sample: the dict (single-sample tab) or the pandas row (batch tab)
    mapping a parameter name to a measurement, [None] standing for NaN. *)
Definition sample := list (string * option Q).

(** [data[param]] when [param in data]; [None] when [param not in data]. *)
Fixpoint sample_get (d : sample) (key : string) : option (option Q) :=
  match d with
  | [] => None
  | (k, v) :: r => if String.eqb k key then Some v else sample_get r key
  end.

(** [param in data and not pd.isna(data[param])], with the value read. *)
Definition present (d : sample) (key : string) : option Q :=
  match sample_get d key with
  | Some (Some v) => Some v
  | _ => None
  end.

(** ** [calculate_sub_index] (lines 82-89) *)

Definition calculate_sub_index (value : option Q) (param : string)
    (param_config : config) : result (option Q) :=
  match value with
  | None => Ok None
  | Some v =>
      if String.eqb param "pH" then
        h <- get param_config "high";
        r <- pydiv (v - 7) (h - 7);
        Ok (Some (Qabs r * 100))
      else
        s <- get param_config "standard";
        r <- pydiv v s;
        Ok (Some (r * 100))
  end.

(** ** [calculate_wqi] (lines 91-105) *)

(** The [for param, config in params.items()] loop, threading the two
    accumulators [wqi] and [total_weight]. *)
Fixpoint wqi_loop (data : sample) (ps : params) (wqi total_weight : Q)
    : result (Q * Q) :=
  match ps with
  | [] => Ok (wqi, total_weight)
  | (param, cfg) :: rest =>
      match present data param with
      | None => wqi_loop data rest wqi total_weight
      | Some v =>
          si <- calculate_sub_index (Some v) param cfg;
          match si with
          | None => wqi_loop data rest wqi total_weight
          | Some sub_index =>
              w <- get cfg "weight";
              wqi_loop data rest (wqi + sub_index * w) (total_weight + w)
          end
      end
  end.

(** ** [classify_wqi] (lines 107-118) *)

Definition classify_wqi (wqi : Q) : string :=
  if Qlt_bool wqi 50 then "Excellent water"
  else if Qle_bool wqi 100 then "Good water"
  else if Qle_bool wqi 200 then "Poor water"
  else if Qle_bool wqi 300 then "Very poor water"
  else "Unsuitable for drinking".

Definition calculate_wqi (data : sample) (ps : params)
    : result (option Q * string) :=
  acc <- wqi_loop data ps 0 0;
  let '(wqi, total_weight) := acc in
  if Qeq_bool total_weight 0 then Ok (None, "No valid data provided")
  else Ok (Some wqi, classify_wqi wqi).

(** ** The shipped parameter tables (lines 9-78) *)

Definition SPRINGS_PARAMS : params := [
  ("Aluminum [µg/l Al]", [("weight", 0.001828); ("standard", 200)]);
  ("Ammonium [mg/l NH4]", [("weight", 0.040472); ("standard", 0.5)]);
  ("Arsenic [µg/l As]", [("weight", 0.009174); ("standard", 10)]);
  ("Cadmium [µg/l Cd]", [("weight", 0.033676); ("standard", 5)]);
  ("Chlorides [mg/l Cl]", [("weight", 0.038744); ("standard", 250)]);
  ("Chlorites [µg/l ClO2]", [("weight", 0.018832); ("standard", 700)]);
  ("Copper [mg/l Cu]", [("weight", 0.119593); ("standard", 2)]);
  ("Fluorides [mg/l F]", [("weight", 0.01348); ("standard", 1.5)]);
  ("Hardness [°F]", [("weight", 0.100148); ("standard", 50)]);
  ("Iron [µg/l Fe]", [("weight", 0.040982); ("standard", 200)]);
  ("Lead [µg/l Pb]", [("weight", 0.096853); ("standard", 10)]);
  ("Magnesium [mg/l Mg]", [("weight", 0.111423); ("standard", 30)]);
  ("Manganese [µg/l Mn]", [("weight", 0.04212); ("standard", 50)]);
  ("Nitrates [mg/l NO3]", [("weight", 0.019065); ("standard", 50)]);
  ("pH", [("weight", 0.076599); ("low", 6.5); ("high", 9.5)]);
  ("Sodium [mg/l Na]", [("weight", 0.016428); ("standard", 200)]);
  ("Sulfates [mg/l SO4]", [("weight", 0.078955); ("standard", 250)]);
  ("Turbidity [NTU]", [("weight", 0.049485); ("standard", 0.3)]);
  ("Vanadium [µg/l V]", [("weight", 0.010561); ("standard", 140)]);
  ("Zinc [µg/l Zn]", [("weight", 0.081582); ("standard", 5000)])].

Definition WELLS_PARAMS : params := [
  ("Aluminum [µg/l Al]", [("weight", 0.08524457); ("standard", 200)]);
  ("Ammonium [mg/l NH4]", [("weight", 0.00472345); ("standard", 0.5)]);
  ("Arsenic [µg/l As]", [("weight", 0.02818904); ("standard", 10)]);
  ("Cadmium [µg/l Cd]", [("weight", 0.07304108); ("standard", 5)]);
  ("Chlorides [mg/l Cl]", [("weight", 0.05636716); ("standard", 250)]);
  ("Copper [mg/l Cu]", [("weight", 0.0546783); ("standard", 2)]);
  ("Fluorides [mg/l F]", [("weight", 0.08794153); ("standard", 1.5)]);
  ("Hardness [°F]", [("weight", 0.05360424); ("standard", 50)]);
  ("Iron [µg/l Fe]", [("weight", 0.07653616); ("standard", 200)]);
  ("Lead [µg/l Pb]", [("weight", 0.15238569); ("standard", 10)]);
  ("Magnesium [mg/l Mg]", [("weight", 0.06770434); ("standard", 30)]);
  ("Manganese [µg/l Mn]", [("weight", 0.04199309); ("standard", 50)]);
  ("Nitrates [mg/l NO3]", [("weight", 0.02516202); ("standard", 50)]);
  ("pH", [("weight", 0.03543887); ("low", 6.5); ("high", 9.5)]);
  ("Sodium [mg/l Na]", [("weight", 0.07688634); ("standard", 200)]);
  ("Sulfates [mg/l SO4]", [("weight", 0.04959354); ("standard", 250)]);
  ("Turbidity [NTU]", [("weight", 0.0030536); ("standard", 0.3)]);
  ("Vanadium [µg/l V]", [("weight", 0.00286481); ("standard", 140)]);
  ("Zinc [µg/l Zn]", [("weight", 0.02459217); ("standard", 5000)])].

Definition LAKES_PARAMS : params := [
  ("Aluminum [µg/l Al]", [("weight", 0.13732495); ("standard", 200)]);
  ("Ammonium [mg/l NH4]", [("weight", 0.08499825); ("standard", 0.5)]);
  ("Arsenic [µg/l As]", [("weight", 0.00785124); ("standard", 10)]);
  ("Cadmium [µg/l Cd]", [("weight", 0.03023614); ("standard", 5)]);
  ("Calcium [mg/l Ca]", [("weight", 0.0037585); ("standard", 300)]);
  ("Chlorides [mg/l Cl]", [("weight", 0.12006373); ("standard", 250)]);
  ("Conductivity at 20°C [µS/cm]", [("weight", 0.10301697); ("standard", 2500)]);
  ("Copper [mg/l Cu]", [("weight", 0.05903513); ("standard", 2)]);
  ("Fluorides [mg/l F]", [("weight", 0.05134627); ("standard", 1.5)]);
  ("Hardness [°F]", [("weight", 0.00831767); ("standard", 50)]);
  ("Iron [µg/l Fe]", [("weight", 0.02670118); ("standard", 200)]);
  ("Lead [µg/l Pb]", [("weight", 0.02825393); ("standard", 10)]);
  ("Manganese [µg/l Mn]", [("weight", 0.00192557); ("standard", 50)]);
  ("Nitrates [mg/l NO3]", [("weight", 0.02986598); ("standard", 50)]);
  ("pH", [("weight", 0.03950439); ("low", 6.5); ("high", 9.5)]);
  ("Sodium [mg/l Na]", [("weight", 0.08998053); ("standard", 200)]);
  ("Sulfates [mg/l SO4]", [("weight", 0.02081114); ("standard", 250)]);
  ("Turbidity [NTU]", [("weight", 0.08237665); ("standard", 0.3)]);
  ("Vanadium [µg/l V]", [("weight", 0.03977873); ("standard", 140)]);
  ("Zinc [µg/l Zn]", [("weight", 0.03485305); ("standard", 5000)])].
(** ** The batch tab (lines 207-215) *)

(** A data frame read by [pd.read_csv]: its column labels and its rows,
    each row holding one cell per column. *)
Record frame := mk_frame {
  columns : list string;
  rows : list (list (option Q))
}.

(** [for param in PARAMETERS.keys(): if param not in df.columns:
    df[param] = np.nan] *)
Fixpoint add_missing_columns (ks : list string) (df : frame) : frame :=
  match ks with
  | [] => df
  | k :: ks' =>
      let df' :=
        if existsb (String.eqb k) (columns df) then df
        else mk_frame (columns df ++ [k])%list (map (fun row => row ++ [None])%list (rows df))
      in add_missing_columns ks' df'
  end.

(** A row seen as a pandas Series indexed by the column labels. *)
Definition row_sample (cols : list string) (row : list (option Q)) : sample :=
  combine cols row.

(** [df.apply(lambda row: calculate_wqi(row, PARAMETERS), axis=1)]: rows in
    order; an exception raised on any row propagates out of [apply]. *)
Fixpoint apply_rows (ps : params) (cols : list string)
    (rs : list (list (option Q))) : result (list (option Q * string)) :=
  match rs with
  | [] => Ok []
  | row :: rs' =>
      x <- calculate_wqi (row_sample cols row) ps;
      xs <- apply_rows ps cols rs';
      Ok (x :: xs)
  end.

Definition score_batch (df : frame) (ps : params)
    : result (list (option Q * string)) :=
  let df' := add_missing_columns (map fst ps) df in
  apply_rows ps (columns df') (rows df').

(** ** Well-formed parameter tables *)

(** The keys [calculate_sub_index] reads are there and its divisor is not
    zero: a ['high'] other than 7 for ['pH'], a nonzero ['standard'] for
    every other parameter. *)
Definition sub_index_ok (k : string) (c : config) : bool :=
  if String.eqb k "pH" then
    match get_opt c "high" with Some h => negb (Qeq_bool h 7) | None => false end
  else
    match get_opt c "standard" with Some s => negb (Qeq_bool s 0) | None => false end.

(** ... and [calculate_wqi] also finds a ['weight']. *)
Definition wf_entry (e : string * config) : bool :=
  let '(k, c) := e in
  match get_opt c "weight" with Some _ => true | None => false end &&
  sub_index_ok k c.

Definition wf_params (ps : params) : bool := forallb wf_entry ps.

(** Every weight is strictly positive. *)
Definition pos_weights (ps : params) : bool :=
  forallb (fun e => match get_opt (snd e) "weight" with
                    | Some w => Qlt_bool 0 w
                    | None => false
                    end) ps.

(** ** The aggregate as the spec words it (section 4.2)

    The sum, over the parameters of the table that have a present value in
    the sample, of [sub_index(value) * weight], and the sum of their
    weights. *)

Definition num (c : config) (key : string) : Q :=
  match get_opt c key with Some v => v | None => 0 end.

Definition spec_sub_index (k : string) (c : config) (v : Q) : Q :=
  if String.eqb k "pH" then Qabs ((v - 7) / (num c "high" - 7)) * 100
  else v / num c "standard" * 100.

Fixpoint participating_sum (d : sample) (ps : params) : Q :=
  match ps with
  | [] => 0
  | (k, c) :: r =>
      match present d k with
      | Some v => spec_sub_index k c v * num c "weight" + participating_sum d r
      | None => participating_sum d r
      end
  end.

Fixpoint participating_weight (d : sample) (ps : params) : Q :=
  match ps with
  | [] => 0
  | (k, c) :: r =>
      match present d k with
      | Some _ => num c "weight" + participating_weight d r
      | None => participating_weight d r
      end
  end.

(** ** The second scoring model (ideal/limit, section 4.1 variant B) *)

Module VariantB.

Local Open Scope R_scope.

(** The three sub-index shapes of the ideal/limit model; the model selects
    the shape of a parameter by its name (a fixed named subset is
    "lower is better", total coliform is log-scaled, every other parameter
    has an ideal point). *)
Inductive shape : Type :=
| LowerIsBetter
| LogScaled
| IdealPoint.

Record param_spec := mk_param_spec {
  kind : shape;
  ideal : R;
  limit : R
}.

Definition log10 (x : R) : R := ln x / ln 10.

(** Modelled from the spec: the sub-index of the ideal/limit model, whose
    source file is not among the repository files at hand (section 4.1,
    "Ideal/limit model (variant B)"). *)
Definition sub_index (p : param_spec) (value : R) : R :=
  if Rlt_dec (limit p) value then 0
  else
    match kind p with
    | LowerIsBetter => 100 * (limit p - value) / limit p
    | LogScaled =>
        if Rlt_dec 0 value then 100 * (1 - log10 (Rmax value 1) / log10 (limit p))
        else 100
    | IdealPoint =>
        if Req_dec_T (limit p) (ideal p) then 100
        else 100 * (value - ideal p) / (limit p - ideal p)
    end.

End VariantB.

(** ** Water body selection (lines 154-159) *)

Definition select_parameters (water_body : string) : params :=
  if String.eqb water_body "Springs" then SPRINGS_PARAMS
  else if String.eqb water_body "Wells" then WELLS_PARAMS
  else LAKES_PARAMS.

(** ** The single-sample tab (lines 164-200) *)

(** [d[k] = v] on a dict: an existing key keeps its place and takes the new
    value, a new key goes last. *)
Definition dict_set {V} (d : list (string * V)) (k : string) (v : V)
    : list (string * V) :=
  if existsb (fun e => String.eqb (fst e) k) d
  then map (fun e => if String.eqb (fst e) k then (k, v) else e) d
  else (d ++ [(k, v)])%list.

(** [data = {}; for param, config in PARAMETERS.items():
    data[param] = st.number_input(...)]: [input param] is the number the
    widget of [param] returns (a float, never NaN). *)
Definition form_data (ps : params) (input : string -> Q) : sample :=
  fold_left (fun d e => dict_set d (fst e) (Some (input (fst e)))) ps [].

(** The widgets' bounds: [min_value=0.0] for every parameter,
    [max_value=14.0] for pH. *)
Definition widget_ok (param : string) (v : Q) : bool :=
  Qle_bool 0 v && (if String.eqb param "pH" then Qle_bool v 14 else true).

(** The bar colour of the single-sample chart (line 193). *)
Definition bar_color (wqi : Q) : string :=
  if Qlt_bool wqi 50 then "#2ecc71"
  else if Qle_bool wqi 100 then "#f1c40f"
  else if Qle_bool wqi 300 then "#e74c3c"
  else "#c0392b".

(** Python's [max(a, b)]: [a] unless [b > a]. *)
Definition py_max (a b : Q) : Q := if Qlt_bool a b then b else a.

(** [ax.set_ylim(0, max(350, wqi * 1.2))] (line 194): the upper limit. *)
Definition ylim_top (wqi : Q) : Q := py_max 350 (wqi * 1.2).

(** The keys of a dict display: a repeated key keeps its first place. *)
Definition insert_key (ks : list string) (k : string) : list string :=
  if existsb (String.eqb k) ks then ks else (ks ++ [k])%list.

(** The columns of [pd.DataFrame({'Location': [location], 'WQI': [wqi],
    'Class': [wqi_class], **data})] (line 198). *)
Definition result_columns (data : sample) : list string :=
  fold_left insert_key (map fst data) ["Location"; "WQI"; "Class"].

(** The columns of the batch frame after [df[['WQI', 'Class']] = results]
    (line 215). *)
Definition batch_output_columns (df : frame) (ps : params) : list string :=
  fold_left insert_key ["WQI"; "Class"]
    (columns (add_missing_columns (map fst ps) df)).

(** Tables for which every sub-index grows with its measurement's
    distance from the ideal: weights [>= 0], a pH ['high'] above 7, a
    positive ['standard'] elsewhere. *)
Definition scales_ok (ps : params) : bool :=
  forallb (fun e =>
    Qle_bool 0 (num (snd e) "weight") &&
    (if String.eqb (fst e) "pH" then Qlt_bool 7 (num (snd e) "high")
     else Qlt_bool 0 (num (snd e) "standard"))) ps.

(** The order of the class labels, from best to worst. *)
Definition class_rank (label : string) : nat :=
  if String.eqb label "Excellent water" then 0
  else if String.eqb label "Good water" then 1
  else if String.eqb label "Poor water" then 2
  else if String.eqb label "Very poor water" then 3
  else 4.

(** Sample [d2] is at least as far from the ideal as [d1] on every
    parameter of the table: the same parameters are present, pH is at
    least as far from 7 and every other measurement is at least as high. *)
Definition dominated (ps : params) (d1 d2 : sample) : bool :=
  forallb (fun k =>
    match present d1 k, present d2 k with
    | Some v1, Some v2 =>
        if String.eqb k "pH" then Qle_bool (Qabs (v1 - 7)) (Qabs (v2 - 7))
        else Qle_bool v1 v2
    | None, None => true
    | _, _ => false
    end) (map fst ps).

(** ** General lemmas *)

Lemma Qeq_bool_false_neq (x y : Q) : Qeq_bool x y = false -> ~ x == y.
Proof.
  intros H E. apply Qeq_bool_iff in E. congruence.
Qed.

Lemma classify_wqi_Qeq (x y : Q) : x == y -> classify_wqi x = classify_wqi y.
Proof.
  intros E. unfold classify_wqi, Qlt_bool.
  assert (Hc : forall b, Qle_bool b x = Qle_bool b y).
  { intros b. destruct (Qle_bool b x) eqn:Hx, (Qle_bool b y) eqn:Hy; auto;
      [apply Qle_bool_iff in Hx | apply Qle_bool_iff in Hy];
      [rewrite E in Hx | rewrite <- E in Hy];
      apply Qle_bool_iff in Hx || apply Qle_bool_iff in Hy; congruence. }
  assert (Hc' : forall b, Qle_bool x b = Qle_bool y b).
  { intros b. destruct (Qle_bool x b) eqn:Hx, (Qle_bool y b) eqn:Hy; auto;
      [apply Qle_bool_iff in Hx | apply Qle_bool_iff in Hy];
      [rewrite E in Hx | rewrite <- E in Hy];
      apply Qle_bool_iff in Hx || apply Qle_bool_iff in Hy; congruence. }
  rewrite !Hc, !Hc'. reflexivity.
Qed.

(** A well-formed entry: [calculate_sub_index] computes the spec's formula. *)
Lemma calculate_sub_index_ok (k : string) (c : config) (v : Q) :
  sub_index_ok k c = true ->
  calculate_sub_index (Some v) k c = Ok (Some (spec_sub_index k c v)).
Proof.
  unfold sub_index_ok, calculate_sub_index, spec_sub_index, num, get, pydiv.
  destruct (String.eqb k "pH").
  - destruct (get_opt c "high") as [h|]; [|discriminate].
    intros Hh. apply negb_true_iff in Hh. cbn [bind].
    destruct (Qeq_bool (h - 7) 0) eqn:E; [|reflexivity].
    apply Qeq_bool_iff in E. exfalso.
    assert (H7 : h == 7) by lra. apply Qeq_bool_iff in H7. congruence.
  - destruct (get_opt c "standard") as [s|]; [|discriminate].
    intros Hs. apply negb_true_iff in Hs. cbn [bind]. rewrite Hs. reflexivity.
Qed.

(** The loop of a well-formed table never raises and accumulates the
    participating sums. *)
Lemma wqi_loop_wf (d : sample) (ps : params) :
  wf_params ps = true ->
  forall a t, exists a' t',
    wqi_loop d ps a t = Ok (a', t') /\
    a' == a + participating_sum d ps /\ t' == t + participating_weight d ps.
Proof.
  induction ps as [|[k c] r IH]; intros Hwf a t;
    cbn [wqi_loop participating_sum participating_weight].
  - exists a, t. split; [reflexivity | split; lra].
  - simpl in Hwf. apply andb_true_iff in Hwf as [He Hr].
    apply andb_true_iff in He as [Hw Hs].
    destruct (present d k) as [v|].
    + rewrite (calculate_sub_index_ok k c v Hs). cbn [bind].
      unfold get, num. destruct (get_opt c "weight") as [w|]; [|discriminate].
      cbn [bind]. destruct (IH Hr (a + spec_sub_index k c v * w) (t + w))
        as (a' & t' & Hl & Ha & Ht).
      exists a', t'. split; [exact Hl | split; lra].
    + destruct (IH Hr a t) as (a' & t' & Hl & Ha & Ht).
      exists a', t'. auto.
Qed.

(** The loop reads the sample only through [present] at the table's keys. *)
Lemma wqi_loop_present_ext (d1 d2 : sample) (ps : params) :
  (forall k, In k (map fst ps) -> present d1 k = present d2 k) ->
  forall a t, wqi_loop d1 ps a t = wqi_loop d2 ps a t.
Proof.
  induction ps as [|[k c] r IH]; intros Hag a t; cbn [wqi_loop]; [reflexivity|].
  rewrite (Hag k (or_introl eq_refl)).
  assert (Hr : forall k', In k' (map fst r) -> present d1 k' = present d2 k')
    by (intros k' Hk'; apply Hag; right; exact Hk').
  destruct (present d2 k) as [v|]; [|apply IH; exact Hr].
  destruct (calculate_sub_index (Some v) k c) as [[si|]|e]; simpl;
    [| apply IH; exact Hr | reflexivity].
  destruct (get c "weight"); simpl; [apply IH; exact Hr | reflexivity].
Qed.

Lemma calculate_wqi_present_ext (d1 d2 : sample) (ps : params) :
  (forall k, In k (map fst ps) -> present d1 k = present d2 k) ->
  calculate_wqi d1 ps = calculate_wqi d2 ps.
Proof.
  intros Hag. unfold calculate_wqi.
  rewrite (wqi_loop_present_ext d1 d2 ps Hag 0 0). reflexivity.
Qed.

Lemma calculate_wqi_wf (d : sample) (ps : params) :
  wf_params ps = true ->
  exists S W, wqi_loop d ps 0 0 = Ok (S, W) /\
    S == participating_sum d ps /\ W == participating_weight d ps /\
    calculate_wqi d ps =
      (if Qeq_bool W 0 then Ok (None, "No valid data provided")
       else Ok (Some S, classify_wqi S)).
Proof.
  intros Hwf. destruct (wqi_loop_wf d ps Hwf 0 0) as (S & W & Hl & HS & HW).
  exists S, W. split; [exact Hl|]. split; [lra|]. split; [lra|].
  unfold calculate_wqi. rewrite Hl. reflexivity.
Qed.

(** With no parameter of the table present, the loop leaves both
    accumulators as they were, whatever the table holds. *)
Lemma wqi_loop_all_absent (d : sample) (ps : params) :
  (forall k, In k (map fst ps) -> present d k = None) ->
  forall a t, wqi_loop d ps a t = Ok (a, t).
Proof.
  induction ps as [|[k c] r IH]; intros Hab a t; cbn [wqi_loop]; [reflexivity|].
  rewrite (Hab k (or_introl eq_refl)). apply IH.
  intros k' Hk'. apply Hab. right. exact Hk'.
Qed.

Lemma participating_weight_pos (d : sample) (ps : params) :
  pos_weights ps = true ->
  0 <= participating_weight d ps /\
  ((exists k, In k (map fst ps) /\ present d k <> None) -> 0 < participating_weight d ps).
Proof.
  induction ps as [|[k c] r IH]; intros Hp; cbn [participating_weight].
  - split; [lra|]. intros (k & [] & _).
  - simpl in Hp. apply andb_true_iff in Hp as [Hw Hr].
    destruct (IH Hr) as [IH0 IH1].
    unfold num. destruct (get_opt c "weight") as [w|]; [|discriminate].
    unfold Qlt_bool in Hw. apply negb_true_iff in Hw.
    assert (Hw0 : 0 < w).
    { apply Qnot_le_lt. intros Hle. apply Qle_bool_iff in Hle. congruence. }
    destruct (present d k) eqn:Hk; (split; [lra|]).
    + intros _. lra.
    + intros (k' & [Heq | Hin] & Hpr).
      * simpl in Heq. subst k'. congruence.
      * apply IH1. exists k'. auto.
Qed.

(** A table with one parameter of weight 0, and a sample where that
    parameter is present. *)
Definition zero_weight_params : params :=
  [("Lead [µg/l Pb]", [("weight", 0); ("standard", 10)])].

Definition zero_weight_sample : sample := [("Lead [µg/l Pb]", Some 5)].

(** ** Claims *)

(** C1 (counterexample): a table whose only participating parameter has
    weight 0 is well-formed, yet [calculate_wqi] returns no WQI at all (not
    the weighted sum 0) but the "No valid data provided" result. *)
Lemma calculate_wqi_zero_weight_no_sum :
  wf_params zero_weight_params = true /\
  present zero_weight_sample "Lead [µg/l Pb]" = Some 5 /\
  calculate_wqi zero_weight_sample zero_weight_params =
    Ok (None, "No valid data provided").
Proof. vm_compute. repeat split. Qed.

(** C1 (amended): for a well-formed table (a ['weight'] key everywhere, a
    nonzero ['standard'], a ['high'] other than 7 for pH) and a sample whose
    participating weight total is nonzero, [calculate_wqi] returns as WQI
    the sum over the participating parameters of [sub_index * weight],
    classified, with no division by the weight total. *)
Theorem calculate_wqi_weighted_sum (d : sample) (ps : params) :
  wf_params ps = true ->
  ~ participating_weight d ps == 0 ->
  exists w, calculate_wqi d ps = Ok (Some w, classify_wqi w) /\
            w == participating_sum d ps.
Proof.
  intros Hwf Hnz.
  destruct (calculate_wqi_wf d ps Hwf) as (S & W & _ & HS & HW & Hc).
  exists S. split; [|exact HS].
  rewrite Hc. destruct (Qeq_bool W 0) eqn:E; [|reflexivity].
  apply Qeq_bool_iff in E. exfalso. apply Hnz. lra.
Qed.

Lemma calculate_wqi_weighted_sum_witness :
  wf_params SPRINGS_PARAMS = true /\
  ~ participating_weight [("pH", Some 9.5)] SPRINGS_PARAMS == 0 /\
  exists w, calculate_wqi [("pH", Some 9.5)] SPRINGS_PARAMS = Ok (Some w, classify_wqi w) /\
            w == participating_sum [("pH", Some 9.5)] SPRINGS_PARAMS.
Proof.
  assert (H1 : wf_params SPRINGS_PARAMS = true) by (vm_compute; reflexivity).
  assert (H2 : ~ participating_weight [("pH", Some 9.5)] SPRINGS_PARAMS == 0)
    by (vm_compute; discriminate).
  split; [exact H1|]. split; [exact H2|].
  apply (calculate_wqi_weighted_sum _ _ H1 H2).
Defined.

Lemma Qle_bool_false_lt (x y : Q) : Qle_bool x y = false -> y < x.
Proof.
  intros H. apply Qnot_le_lt. intros Hle. apply Qle_bool_iff in Hle. congruence.
Qed.

Ltac qle_to_prop :=
  repeat match goal with
  | H : Qle_bool _ _ = true |- _ => apply Qle_bool_iff in H
  | H : Qle_bool _ _ = false |- _ => apply Qle_bool_false_lt in H
  end.

(** C2: [classify_wqi] is policy A, tested top-down: strict [< 50], then
    [<= 100], [<= 200], [<= 300], and everything above 300 is unsuitable;
    in particular 50 is "Good water" and 49.999 is "Excellent water". *)
Theorem classify_wqi_policy_A (q : Q) :
  (q < 50 -> classify_wqi q = "Excellent water") /\
  (50 <= q /\ q <= 100 -> classify_wqi q = "Good water") /\
  (100 < q /\ q <= 200 -> classify_wqi q = "Poor water") /\
  (200 < q /\ q <= 300 -> classify_wqi q = "Very poor water") /\
  (300 < q -> classify_wqi q = "Unsuitable for drinking") /\
  classify_wqi 50 = "Good water" /\
  classify_wqi 49.999 = "Excellent water".
Proof.
  repeat split; try reflexivity; intros; unfold classify_wqi, Qlt_bool;
    repeat match goal with
    | |- context [Qle_bool ?a ?b] => destruct (Qle_bool a b) eqn:?
    end; simpl; qle_to_prop; first [reflexivity | lra].
Qed.

(** C3 (counterexample): with a present parameter of weight 0 the result
    is "No valid data provided" although a parameter of the table has a
    present value. *)
Lemma no_valid_data_with_present_parameter :
  In "Lead [µg/l Pb]" (map fst zero_weight_params) /\
  present zero_weight_sample "Lead [µg/l Pb]" <> None /\
  calculate_wqi zero_weight_sample zero_weight_params =
    Ok (None, "No valid data provided").
Proof.
  split; [left; reflexivity|]. split; [discriminate|]. vm_compute. reflexivity.
Qed.

(** C3 (amended): for a well-formed table, [calculate_wqi] returns
    [(None, "No valid data provided")] exactly when the participating weight
    total is zero; when all weights are positive this is exactly when no
    parameter of the table has a present value; and a sample in which every
    parameter of the table is absent always gets that result. *)
Theorem calculate_wqi_no_valid_data (d : sample) (ps : params) :
  wf_params ps = true ->
  (calculate_wqi d ps = Ok (None, "No valid data provided") <->
     participating_weight d ps == 0) /\
  (pos_weights ps = true ->
     (participating_weight d ps == 0 <->
        forall k, In k (map fst ps) -> present d k = None)) /\
  ((forall k, In k (map fst ps) -> present d k = None) ->
     calculate_wqi d ps = Ok (None, "No valid data provided")).
Proof.
  intros Hwf.
  destruct (calculate_wqi_wf d ps Hwf) as (S & W & Hl & HS & HW & Hc).
  split; [|split].
  - rewrite Hc. destruct (Qeq_bool W 0) eqn:E.
    + apply Qeq_bool_iff in E. split; [intros _; lra | reflexivity].
    + apply Qeq_bool_false_neq in E. split; [discriminate|].
      intros H0. exfalso. apply E. lra.
  - intros Hp. destruct (participating_weight_pos d ps Hp) as [_ Hpos]. split.
    + intros H0 k Hk. destruct (present d k) eqn:Hpr; [|reflexivity].
      exfalso. assert (Hlt : 0 < participating_weight d ps)
        by (apply Hpos; exists k; split; [exact Hk | congruence]).
      lra.
    + intros Hab. rewrite (wqi_loop_all_absent d ps Hab 0 0) in Hl.
      injection Hl as _ HW0. subst W. lra.
  - intros Hab. unfold calculate_wqi.
    rewrite (wqi_loop_all_absent d ps Hab 0 0). reflexivity.
Qed.

Lemma calculate_wqi_no_valid_data_witness :
  wf_params SPRINGS_PARAMS = true /\
  ((calculate_wqi [("pH", None)] SPRINGS_PARAMS = Ok (None, "No valid data provided") <->
     participating_weight [("pH", None)] SPRINGS_PARAMS == 0) /\
  (pos_weights SPRINGS_PARAMS = true ->
     (participating_weight [("pH", None)] SPRINGS_PARAMS == 0 <->
        forall k, In k (map fst SPRINGS_PARAMS) -> present [("pH", None)] k = None)) /\
  ((forall k, In k (map fst SPRINGS_PARAMS) -> present [("pH", None)] k = None) ->
     calculate_wqi [("pH", None)] SPRINGS_PARAMS = Ok (None, "No valid data provided"))).
Proof.
  assert (H1 : wf_params SPRINGS_PARAMS = true) by (vm_compute; reflexivity).
  split; [exact H1|]. apply (calculate_wqi_no_valid_data _ _ H1).
Defined.

(** C4: for a parameter other than ['pH'] with a ['standard'] [s > 0], the
    sub-index of a present value [v] is [(v / s) * 100]; it equals 100 when
    [v] equals the standard and exceeds 100, unclamped, when [v] exceeds it. *)
Theorem calculate_sub_index_standard (v s : Q) (name : string) (c : config) :
  String.eqb name "pH" = false ->
  get_opt c "standard" = Some s ->
  0 < s ->
  calculate_sub_index (Some v) name c = Ok (Some (v / s * 100)) /\
  (v == s -> v / s * 100 == 100) /\
  (s < v -> 100 < v / s * 100).
Proof.
  intros Hn Hs Hpos.
  assert (Hs0 : ~ s == 0) by lra.
  split; [|split].
  - unfold calculate_sub_index, get, pydiv. rewrite Hn, Hs. cbn [bind].
    destruct (Qeq_bool s 0) eqn:E; [|reflexivity].
    apply Qeq_bool_iff in E. contradiction.
  - intros Hv. rewrite Hv. field. exact Hs0.
  - intros Hlt. setoid_replace (v / s * 100) with ((v * 100) / s) by (field; exact Hs0).
    apply Qlt_shift_div_l; [exact Hpos | lra].
Qed.

Lemma calculate_sub_index_standard_witness :
  String.eqb "Aluminum [µg/l Al]" "pH" = false /\
  get_opt [("weight", 0.001828); ("standard", 200)] "standard" = Some 200 /\
  0 < 200 /\
  calculate_sub_index (Some 200) "Aluminum [µg/l Al]"
    [("weight", 0.001828); ("standard", 200)] = Ok (Some (200 / 200 * 100)) /\
  (200 == 200 -> 200 / 200 * 100 == 100) /\
  (200 < 200 -> 100 < 200 / 200 * 100).
Proof.
  assert (H1 : String.eqb "Aluminum [µg/l Al]" "pH" = false) by reflexivity.
  assert (H2 : get_opt [("weight", 0.001828); ("standard", 200)] "standard" = Some 200)
    by reflexivity.
  assert (H3 : 0 < 200) by (vm_compute; reflexivity).
  split; [exact H1|]. split; [exact H2|]. split; [exact H3|].
  apply (calculate_sub_index_standard 200 200 _ _ H1 H2 H3).
Defined.

(** C5 (counterexample): on the Springs table with pH 9.5 alone, the
    participating weighted sum divided by the participating weight is 100,
    yet [calculate_wqi] returns the undivided 7.6599. *)
Lemma springs_pH_wqi_not_divided :
  participating_sum [("pH", Some 9.5)] SPRINGS_PARAMS /
    participating_weight [("pH", Some 9.5)] SPRINGS_PARAMS == 100 /\
  exists w, calculate_wqi [("pH", Some 9.5)] SPRINGS_PARAMS =
              Ok (Some w, "Excellent water") /\
            w == 7.6599 /\
            ~ w == participating_sum [("pH", Some 9.5)] SPRINGS_PARAMS /
                   participating_weight [("pH", Some 9.5)] SPRINGS_PARAMS.
Proof.
  split; [vm_compute; reflexivity|].
  eexists. split; [vm_compute; reflexivity|].
  split; [vm_compute; reflexivity|]. vm_compute. discriminate.
Qed.

(** C5 (amended): for a well-formed table and a sample with nonzero
    participating weight, [calculate_wqi] returns the accumulated weighted
    sum [S] itself, not [S] divided by the participating weight total [W]
    (the two agree only when [S] is 0 or [W] is 1); [W] only decides the
    "No valid data provided" case. *)
Theorem calculate_wqi_undivided (d : sample) (ps : params) :
  wf_params ps = true ->
  ~ participating_weight d ps == 0 ->
  exists S W, wqi_loop d ps 0 0 = Ok (S, W) /\
    W == participating_weight d ps /\
    calculate_wqi d ps = Ok (Some S, classify_wqi S) /\
    (S == S / W <-> S == 0 \/ W == 1).
Proof.
  intros Hwf Hnz.
  destruct (calculate_wqi_wf d ps Hwf) as (S & W & Hl & _ & HW & Hc).
  assert (HW0 : ~ W == 0) by (intros H0; apply Hnz; lra).
  exists S, W. split; [exact Hl|]. split; [exact HW|]. split.
  - rewrite Hc. destruct (Qeq_bool W 0) eqn:E; [|reflexivity].
    apply Qeq_bool_iff in E. contradiction.
  - split.
    + intros Hd.
      assert (Hsw : S * W == S) by (rewrite Hd at 1; field; exact HW0).
      assert (Hm : S * (W - 1) == 0).
      { setoid_replace (S * (W - 1)) with (S * W - S) by ring.
        rewrite Hsw. ring. }
      apply Qmult_integral in Hm as [Hm | Hm]; [left; exact Hm | right; lra].
    + intros [Hm | Hm].
      * rewrite Hm. field. exact HW0.
      * rewrite Hm. field.
Qed.

Lemma calculate_wqi_undivided_witness :
  wf_params SPRINGS_PARAMS = true /\
  ~ participating_weight [("pH", Some 9.5)] SPRINGS_PARAMS == 0 /\
  exists S W, wqi_loop [("pH", Some 9.5)] SPRINGS_PARAMS 0 0 = Ok (S, W) /\
    W == participating_weight [("pH", Some 9.5)] SPRINGS_PARAMS /\
    calculate_wqi [("pH", Some 9.5)] SPRINGS_PARAMS = Ok (Some S, classify_wqi S) /\
    (S == S / W <-> S == 0 \/ W == 1).
Proof.
  assert (H1 : wf_params SPRINGS_PARAMS = true) by (vm_compute; reflexivity).
  assert (H2 : ~ participating_weight [("pH", Some 9.5)] SPRINGS_PARAMS == 0)
    by (vm_compute; discriminate).
  split; [exact H1|]. split; [exact H2|].
  apply (calculate_wqi_undivided _ _ H1 H2).
Defined.

(** C6: on the Springs table, the pH spec [{low: 6.5, high: 9.5}] gives
    [abs((7.0 - 7) / (9.5 - 7)) * 100 = 0] for a pH of 7.0, and a sample
    whose only present parameter is pH = 7.0 scores 0, "Excellent water". *)
Theorem springs_pH_neutral (d : sample) :
  present d "pH" = Some 7 ->
  (forall k, In k (map fst SPRINGS_PARAMS) -> k <> "pH" -> present d k = None) ->
  In ("pH", [("weight", 0.076599); ("low", 6.5); ("high", 9.5)]) SPRINGS_PARAMS /\
  (exists x, calculate_sub_index (Some 7) "pH"
               [("weight", 0.076599); ("low", 6.5); ("high", 9.5)] = Ok (Some x) /\
             x == Qabs ((7 - 7) / (9.5 - 7)) * 100 /\ x == 0) /\
  (exists w, calculate_wqi d SPRINGS_PARAMS = Ok (Some w, "Excellent water") /\
             w == 0).
Proof.
  intros HpH Hothers. split; [|split].
  - do 14 right. left. reflexivity.
  - eexists. split; [reflexivity|]. split; vm_compute; reflexivity.
  - rewrite (calculate_wqi_present_ext d [("pH", Some 7)] SPRINGS_PARAMS).
    + eexists. split; vm_compute; reflexivity.
    + intros k Hk. destruct (string_dec k "pH") as [->|Hne].
      * exact HpH.
      * rewrite (Hothers k Hk Hne). unfold present. cbn [sample_get].
        destruct (String.eqb "pH" k) eqn:E; [|reflexivity].
        apply String.eqb_eq in E. congruence.
Qed.

Lemma springs_pH_neutral_witness :
  present [("Location", None); ("pH", Some 7); ("Lead [µg/l Pb]", None)] "pH" = Some 7 /\
  (exists w, calculate_wqi [("Location", None); ("pH", Some 7); ("Lead [µg/l Pb]", None)]
               SPRINGS_PARAMS = Ok (Some w, "Excellent water") /\ w == 0).
Proof.
  assert (H1 : present [("Location", None); ("pH", Some 7); ("Lead [µg/l Pb]", None)]
                 "pH" = Some 7) by reflexivity.
  assert (H2 : forall k, In k (map fst SPRINGS_PARAMS) -> k <> "pH" ->
            present [("Location", None); ("pH", Some 7); ("Lead [µg/l Pb]", None)] k = None).
  { intros k Hk Hne. simpl in Hk.
    repeat (destruct Hk as [<- | Hk]; [reflexivity || congruence|]). contradiction. }
  split; [exact H1|]. apply (springs_pH_neutral _ H1 H2).
Defined.

(** Batch tab: adding a NaN column and reading rows as samples. *)

Lemma sample_get_app (l1 l2 : sample) (key : string) :
  sample_get (l1 ++ l2)%list key =
  match sample_get l1 key with Some v => Some v | None => sample_get l2 key end.
Proof.
  induction l1 as [|[k v] r IH]; simpl; [reflexivity|].
  destruct (String.eqb k key); [reflexivity | exact IH].
Qed.

Lemma combine_app_same {A B} (a1 a2 : list A) (b1 b2 : list B) :
  length a1 = length b1 ->
  combine (a1 ++ a2) (b1 ++ b2) = (combine a1 b1 ++ combine a2 b2)%list.
Proof.
  revert b1. induction a1 as [|x a1 IH]; intros [|y b1] Hl; simpl in *;
    try discriminate; [reflexivity|].
  f_equal. apply IH. lia.
Qed.

Lemma present_add_nan_column (cols : list string) (row : list (option Q))
    (k key : string) :
  length row = length cols ->
  present (row_sample (cols ++ [k])%list (row ++ [None])%list) key =
  present (row_sample cols row) key.
Proof.
  intros Hl. unfold present, row_sample.
  rewrite combine_app_same by lia. rewrite sample_get_app.
  destruct (sample_get (combine cols row) key) as [v|]; [reflexivity|].
  simpl. destruct (String.eqb k key); reflexivity.
Qed.

Lemma add_missing_columns_rows (ks : list string) (df : frame) :
  (forall row, In row (rows df) -> length row = length (columns df)) ->
  exists f, rows (add_missing_columns ks df) = map f (rows df) /\
    forall row, length row = length (columns df) ->
      length (f row) = length (columns (add_missing_columns ks df)) /\
      forall key, present (row_sample (columns (add_missing_columns ks df)) (f row)) key =
                  present (row_sample (columns df) row) key.
Proof.
  revert df. induction ks as [|k ks IH]; intros df Hal; cbn [add_missing_columns].
  - exists (fun row => row). rewrite map_id. split; [reflexivity|]. auto.
  - destruct (existsb (String.eqb k) (columns df)); [apply IH; exact Hal|].
    set (df1 := mk_frame (columns df ++ [k])%list
                  (map (fun row => row ++ [None])%list (rows df))).
    assert (Hal1 : forall row, In row (rows df1) -> length row = length (columns df1)).
    { intros row Hin. simpl in Hin |- *. apply in_map_iff in Hin as (r & <- & Hr).
      rewrite !length_app. rewrite (Hal r Hr). reflexivity. }
    destruct (IH df1 Hal1) as (f & Hrows & Hf).
    exists (fun row => f (row ++ [None])%list). split.
    + rewrite Hrows. simpl. rewrite map_map. reflexivity.
    + intros row Hl.
      assert (Hl1 : length (row ++ [None])%list = length (columns df1))
        by (simpl; rewrite !length_app; rewrite Hl; reflexivity).
      destruct (Hf _ Hl1) as [Hlen Hpr]. split; [exact Hlen|].
      intros key. rewrite Hpr. apply present_add_nan_column. exact Hl.
Qed.

Lemma apply_rows_Forall2 (ps : params) (cols : list string)
    (rs : list (list (option Q))) (out : list (option Q * string)) :
  apply_rows ps cols rs = Ok out <->
  Forall2 (fun row x => calculate_wqi (row_sample cols row) ps = Ok x) rs out.
Proof.
  revert out. induction rs as [|row rs IH]; intros out; cbn [apply_rows].
  - split; [intros H; injection H as <-; constructor|].
    intros H; inversion H; reflexivity.
  - split.
    + destruct (calculate_wqi (row_sample cols row) ps) as [x|e] eqn:Hx;
        cbn [bind]; [|discriminate].
      destruct (apply_rows ps cols rs) as [xs|e] eqn:Hxs; cbn [bind]; [|discriminate].
      intros H. injection H as <-. constructor; [exact Hx|]. apply IH. reflexivity.
    + intros H. inversion H as [|? x ? xs Hx Hxs]; subst.
      rewrite Hx. cbn [bind]. apply IH in Hxs. rewrite Hxs. reflexivity.
Qed.

Lemma Forall2_map_l_iff {A A' B} (f : A -> A') (P : A' -> B -> Prop)
    (R : A -> B -> Prop) (l : list A) (out : list B) :
  (forall a b, In a l -> (P (f a) b <-> R a b)) ->
  (Forall2 P (map f l) out <-> Forall2 R l out).
Proof.
  revert out. induction l as [|a l IH]; intros out Hpr; simpl.
  - split; intros H; inversion H; constructor.
  - assert (Hl : forall a' b, In a' l -> (P (f a') b <-> R a' b))
      by (intros; apply Hpr; right; assumption).
    split; intros H; inversion H as [|? b ? bs Hb Hbs]; subst; constructor.
    + apply Hpr; [left; reflexivity | exact Hb].
    + apply IH; assumption.
    + apply Hpr; [left; reflexivity | exact Hb].
    + apply IH; assumption.
Qed.

(** [score_batch] succeeds with [out] exactly when [out] holds, row by row
    and in order, the result of [calculate_wqi] on the original row, a
    column absent from the frame counting as absent in the row. *)
Lemma score_batch_Forall2 (df : frame) (ps : params) (out : list (option Q * string)) :
  (forall row, In row (rows df) -> length row = length (columns df)) ->
  score_batch df ps = Ok out <->
  Forall2 (fun row x => calculate_wqi (row_sample (columns df) row) ps = Ok x)
    (rows df) out.
Proof.
  intros Hal. unfold score_batch.
  destruct (add_missing_columns_rows (map fst ps) df Hal) as (f & Hrows & Hf).
  rewrite apply_rows_Forall2, Hrows. apply Forall2_map_l_iff.
  intros row x Hin. destruct (Hf row (Hal row Hin)) as [_ Hpr].
  rewrite (calculate_wqi_present_ext _ (row_sample (columns df) row));
    [reflexivity|]. intros k _. apply Hpr.
Qed.

Lemma Forall2_nth_error_l {A B} (P : A -> B -> Prop) (l : list A) (out : list B) :
  Forall2 P l out ->
  forall i a, nth_error l i = Some a -> exists b, nth_error out i = Some b /\ P a b.
Proof.
  induction 1 as [|a b l out Hab _ IH]; intros [|i] a' Hi; simpl in Hi.
  - discriminate.
  - discriminate.
  - injection Hi as <-. exists b. split; [reflexivity | exact Hab].
  - apply IH. exact Hi.
Qed.

Lemma Forall2_total {A B} (P : A -> B -> Prop) (l : list A) :
  (forall a, exists b, P a b) -> exists out, Forall2 P l out.
Proof.
  intros Htot. induction l as [|a l (out & IH)].
  - exists []. constructor.
  - destruct (Htot a) as [b Hb]. exists (b :: out). constructor; assumption.
Qed.

(** C7: batch scoring is row-wise and order-preserving: on a frame with
    [n] rows it succeeds with a list of results exactly when that list has
    [n] entries, the [i]-th being [calculate_wqi] of the [i]-th row alone
    (a column missing from the whole frame counting as absent in every row);
    on a well-formed table it always succeeds; permuting the rows permutes
    the results. *)
Theorem score_batch_rowwise (df : frame) (ps : params) :
  (forall row, In row (rows df) -> length row = length (columns df)) ->
  (forall out, score_batch df ps = Ok out <->
     Forall2 (fun row x => calculate_wqi (row_sample (columns df) row) ps = Ok x)
       (rows df) out) /\
  (forall out, score_batch df ps = Ok out ->
     length out = length (rows df) /\
     forall i row, nth_error (rows df) i = Some row ->
       exists x, nth_error out i = Some x /\
                 calculate_wqi (row_sample (columns df) row) ps = Ok x) /\
  (wf_params ps = true -> exists out, score_batch df ps = Ok out) /\
  (forall rows' out, Permutation (rows df) rows' -> score_batch df ps = Ok out ->
     exists out', score_batch (mk_frame (columns df) rows') ps = Ok out' /\
                  Permutation out out').
Proof.
  intros Hal. split; [|split; [|split]].
  - intros out. apply score_batch_Forall2. exact Hal.
  - intros out Hout. apply (score_batch_Forall2 df ps out Hal) in Hout.
    split.
    + symmetry. apply (Forall2_length Hout).
    + apply (Forall2_nth_error_l _ _ _ Hout).
  - intros Hwf.
    destruct (Forall2_total
      (fun row x => calculate_wqi (row_sample (columns df) row) ps = Ok x) (rows df))
      as [out Hout].
    + intros row. destruct (calculate_wqi_wf (row_sample (columns df) row) ps Hwf)
        as (S & W & _ & _ & _ & Hc).
      rewrite Hc. destruct (Qeq_bool W 0); eexists; reflexivity.
    + exists out. apply score_batch_Forall2; assumption.
  - intros rows' out Hperm Hout. apply (score_batch_Forall2 df ps out Hal) in Hout.
    destruct (Permutation_Forall2 Hperm Hout) as (out' & Hpo & Hf').
    exists out'. split; [|exact Hpo].
    apply score_batch_Forall2; [|exact Hf'].
    intros row Hin. apply Hal. apply (Permutation_in row (Permutation_sym Hperm) Hin).
Qed.

(** A two-row frame with a "Location" column and no "Lead" column. *)
Definition batch_example : frame :=
  mk_frame ["Location"; "pH"] [[Some 1; Some 7]; [Some 2; Some 9.5]].

Lemma score_batch_rowwise_witness :
  (forall row, In row (rows batch_example) -> length row = length (columns batch_example)) /\
  exists out, score_batch batch_example SPRINGS_PARAMS = Ok out /\
    length out = 2%nat.
Proof.
  assert (Hal : forall row, In row (rows batch_example) ->
                  length row = length (columns batch_example)).
  { intros row [<- | [<- | []]]; reflexivity. }
  split; [exact Hal|].
  destruct (score_batch_rowwise batch_example SPRINGS_PARAMS Hal)
    as (_ & Hlen & Htot & _).
  destruct Htot as [out Hout]; [vm_compute; reflexivity|].
  exists out. split; [exact Hout|]. apply Hlen. exact Hout.
Defined.

(** C8: in the ideal/limit model, a value strictly above the parameter's
    limit has sub-index exactly 0, whatever the parameter's shape. *)
Theorem variantB_sub_index_above_limit (p : VariantB.param_spec) (value : R) :
  (VariantB.limit p < value)%R -> VariantB.sub_index p value = 0%R.
Proof.
  intros Hlt. unfold VariantB.sub_index.
  destruct (Rlt_dec (VariantB.limit p) value) as [_|Hn]; [reflexivity|].
  contradiction.
Qed.

Lemma variantB_sub_index_above_limit_witness :
  (VariantB.limit (VariantB.mk_param_spec VariantB.LogScaled 0 1000) < 5000)%R /\
  VariantB.sub_index (VariantB.mk_param_spec VariantB.LogScaled 0 1000) 5000 = 0%R.
Proof.
  assert (H : (VariantB.limit (VariantB.mk_param_spec VariantB.LogScaled 0 1000) < 5000)%R)
    by (simpl; apply IZR_lt; reflexivity).
  split; [exact H|]. apply (variantB_sub_index_above_limit _ _ H).
Defined.

(** C9: [calculate_wqi] reads the sample only at the keys of the table:
    two samples with the same present values at those keys (a key missing
    and a NaN value counting alike) get the same result, exception included. *)
Theorem calculate_wqi_noninterference (ps : params) (d1 d2 : sample) :
  (forall k, In k (map fst ps) -> present d1 k = present d2 k) ->
  calculate_wqi d1 ps = calculate_wqi d2 ps.
Proof.
  intros Hag. unfold calculate_wqi.
  rewrite (wqi_loop_present_ext d1 d2 ps Hag 0 0). reflexivity.
Qed.

Lemma calculate_wqi_noninterference_witness :
  calculate_wqi [("Location", Some 12); ("pH", Some 8); ("Colour", Some 3)] SPRINGS_PARAMS =
  calculate_wqi [("pH", Some 8)] SPRINGS_PARAMS.
Proof.
  apply calculate_wqi_noninterference.
  intros k Hk. simpl in Hk.
  repeat (destruct Hk as [<- | Hk]; [reflexivity|]). contradiction.
Defined.

(** A non-pH config with a zero ['standard'] and a pH config whose
    ['high'] is 7: both have the keys the code reads. *)
Definition zero_standard_config : config := [("weight", 0.1); ("standard", 0)].

Definition neutral_high_config : config := [("weight", 0.1); ("low", 6.5); ("high", 7)].

(** C10 (counterexample): with all keys present, a zero ['standard'] or a
    pH ['high'] of 7 makes [calculate_sub_index] raise [ZeroDivisionError]
    on a finite value. *)
Lemma calculate_sub_index_zero_divisor :
  get_opt zero_standard_config "standard" = Some 0 /\
  calculate_sub_index (Some 1) "Lead [µg/l Pb]" zero_standard_config =
    Err ZeroDivisionError /\
  get_opt neutral_high_config "high" = Some 7 /\
  calculate_sub_index (Some 8) "pH" neutral_high_config = Err ZeroDivisionError.
Proof. vm_compute. repeat split. Qed.

(** C10 (amended): [calculate_sub_index] dispatches on the name "pH": for
    "pH" only ['high'] is read (never ['low']), for any other name only
    ['standard'], unconditionally, whatever the config's shape; a missing
    key raises [KeyError]; with a ['high'] other than 7 for "pH" and a
    nonzero ['standard'] otherwise, as in the three shipped tables, it
    never raises. *)
Theorem calculate_sub_index_dispatch :
  (forall v c1 c2, get_opt c1 "high" = get_opt c2 "high" ->
     calculate_sub_index v "pH" c1 = calculate_sub_index v "pH" c2) /\
  (forall v name c1 c2, String.eqb name "pH" = false ->
     get_opt c1 "standard" = get_opt c2 "standard" ->
     calculate_sub_index v name c1 = calculate_sub_index v name c2) /\
  (forall v c, get_opt c "high" = None ->
     calculate_sub_index (Some v) "pH" c = Err (KeyError "high")) /\
  (forall v name c, String.eqb name "pH" = false -> get_opt c "standard" = None ->
     calculate_sub_index (Some v) name c = Err (KeyError "standard")) /\
  (forall v name c, sub_index_ok name c = true ->
     exists r, calculate_sub_index v name c = Ok r) /\
  forallb (fun e => sub_index_ok (fst e) (snd e)) SPRINGS_PARAMS = true /\
  forallb (fun e => sub_index_ok (fst e) (snd e)) WELLS_PARAMS = true /\
  forallb (fun e => sub_index_ok (fst e) (snd e)) LAKES_PARAMS = true.
Proof.
  split; [|split; [|split; [|split; [|split]]]].
  - intros v c1 c2 Hh. unfold calculate_sub_index, get. rewrite Hh. reflexivity.
  - intros v name c1 c2 Hn Hs. unfold calculate_sub_index, get.
    rewrite Hn, Hs. reflexivity.
  - intros v c Hh. unfold calculate_sub_index, get. rewrite Hh. reflexivity.
  - intros v name c Hn Hs. unfold calculate_sub_index, get.
    rewrite Hn, Hs. reflexivity.
  - intros [v|] name c Hok.
    + eexists. apply calculate_sub_index_ok. exact Hok.
    + exists None. reflexivity.
  - vm_compute. repeat split.
Qed.

(** ** Further properties of the app *)

Lemma sample_get_map_other (d : sample) (k key : string) (v : option Q) :
  k <> key ->
  sample_get (map (fun e => if String.eqb (fst e) k then (k, v) else e) d) key =
  sample_get d key.
Proof.
  intros Hne. induction d as [|[k' v'] r IH]; simpl; [reflexivity|].
  destruct (String.eqb k' k) eqn:E; simpl.
  - apply String.eqb_eq in E. subst k'.
    apply String.eqb_neq in Hne. rewrite Hne. exact IH.
  - destruct (String.eqb k' key); [reflexivity | exact IH].
Qed.

Lemma sample_get_map_same (d : sample) (k : string) (v : option Q) :
  existsb (fun e => String.eqb (fst e) k) d = true ->
  sample_get (map (fun e => if String.eqb (fst e) k then (k, v) else e) d) k = Some v.
Proof.
  induction d as [|[k' v'] r IH]; simpl; [discriminate|].
  destruct (String.eqb k' k) eqn:E; simpl.
  - rewrite String.eqb_refl. reflexivity.
  - rewrite E. exact IH.
Qed.

Lemma sample_get_not_exists (d : sample) (k : string) :
  existsb (fun e => String.eqb (fst e) k) d = false -> sample_get d k = None.
Proof.
  induction d as [|[k' v'] r IH]; simpl; [reflexivity|].
  destruct (String.eqb k' k); [discriminate | exact IH].
Qed.

Lemma sample_get_dict_set (d : sample) (k key : string) (v : option Q) :
  sample_get (dict_set d k v) key =
  if String.eqb k key then Some v else sample_get d key.
Proof.
  unfold dict_set. destruct (String.eqb k key) eqn:Ek.
  - apply String.eqb_eq in Ek. subst key.
    destruct (existsb (fun e => String.eqb (fst e) k) d) eqn:Ex.
    + apply sample_get_map_same. exact Ex.
    + rewrite sample_get_app, (sample_get_not_exists d k Ex). simpl.
      rewrite String.eqb_refl. reflexivity.
  - apply String.eqb_neq in Ek.
    destruct (existsb (fun e => String.eqb (fst e) k) d).
    + apply sample_get_map_other. exact Ek.
    + rewrite sample_get_app. destruct (sample_get d key); [reflexivity|].
      simpl. apply String.eqb_neq in Ek. rewrite Ek. reflexivity.
Qed.

Lemma sample_get_form_data_acc (ps : params) (input : string -> Q) (d : sample)
    (key : string) :
  sample_get (fold_left (fun d e => dict_set d (fst e) (Some (input (fst e)))) ps d) key =
  if existsb (String.eqb key) (map fst ps) then Some (Some (input key))
  else sample_get d key.
Proof.
  revert d. induction ps as [|e r IH]; intros d; simpl; [reflexivity|].
  rewrite IH, sample_get_dict_set.
  destruct (String.eqb key (fst e)) eqn:E1, (String.eqb (fst e) key) eqn:E2; simpl;
    try (destruct (existsb (String.eqb key) (map fst r)); reflexivity).
  - apply String.eqb_eq in E1. subst key.
    destruct (existsb (String.eqb (fst e)) (map fst r)); reflexivity.
  - apply String.eqb_eq in E1. subst key. rewrite String.eqb_refl in E2. discriminate.
  - apply String.eqb_eq in E2. subst key. rewrite String.eqb_refl in E1. discriminate.
Qed.

(** Every parameter of the table is present in the form's data, with the
    widget's number, and nothing else is. *)
Lemma present_form_data (ps : params) (input : string -> Q) (key : string) :
  present (form_data ps input) key =
  if existsb (String.eqb key) (map fst ps) then Some (input key) else None.
Proof.
  unfold present, form_data. rewrite sample_get_form_data_acc.
  destruct (existsb (String.eqb key) (map fst ps)); reflexivity.
Qed.

Lemma select_parameters_ok (water_body : string) :
  wf_params (select_parameters water_body) = true /\
  pos_weights (select_parameters water_body) = true /\
  scales_ok (select_parameters water_body) = true /\
  map fst (select_parameters water_body) <> [].
Proof.
  unfold select_parameters.
  destruct (String.eqb water_body "Springs"); [|destruct (String.eqb water_body "Wells")];
    (split; [vm_compute; reflexivity|]); (split; [vm_compute; reflexivity|]);
    (split; [vm_compute; reflexivity | discriminate]).
Qed.

Lemma no_valid_data_iff_absent (d : sample) (ps : params) :
  wf_params ps = true -> pos_weights ps = true ->
  exists r, calculate_wqi d ps = Ok r /\
    (r = (None, "No valid data provided") <->
     forall k, In k (map fst ps) -> present d k = None).
Proof.
  intros Hwf Hpos.
  destruct (calculate_wqi_wf d ps Hwf) as (S & W & Hl & HS & HW & Hc).
  destruct (participating_weight_pos d ps Hpos) as [H0 Hlt].
  rewrite Hc. destruct (Qeq_bool W 0) eqn:E; (eexists; split; [reflexivity|]); split.
  - intros _ k Hk. apply Qeq_bool_iff in E.
    destruct (present d k) eqn:Hp; [|reflexivity]. exfalso.
    assert (Hw : 0 < participating_weight d ps)
      by (apply Hlt; exists k; split; [exact Hk | congruence]).
    lra.
  - intros _. reflexivity.
  - discriminate.
  - intros Hab. rewrite (wqi_loop_all_absent d ps Hab 0 0) in Hl.
    injection Hl as _ <-. discriminate E.
Qed.

Lemma Qlt_bool_true (a b : Q) : Qlt_bool a b = true -> a < b.
Proof.
  unfold Qlt_bool. intros H. apply negb_true_iff in H. apply Qle_bool_false_lt. exact H.
Qed.

Lemma existsb_eqb_In (k : string) (l : list string) :
  In k l -> existsb (String.eqb k) l = true.
Proof.
  intros Hin. apply existsb_exists. exists k. split; [exact Hin | apply String.eqb_refl].
Qed.

Lemma participating_sum_nonneg (d : sample) (ps : params) :
  scales_ok ps = true ->
  (forall k v, present d k = Some v -> 0 <= v) ->
  0 <= participating_sum d ps.
Proof.
  intros Hsc Hv. induction ps as [|[k c] r IH]; cbn [participating_sum]; [lra|].
  simpl in Hsc. apply andb_true_iff in Hsc as [He Hr].
  apply andb_true_iff in He as [Hw Hs]. apply Qle_bool_iff in Hw.
  specialize (IH Hr).
  destruct (present d k) as [v|] eqn:Hp; [|exact IH].
  assert (Hsi : 0 <= spec_sub_index k c v).
  { unfold spec_sub_index. destruct (String.eqb k "pH").
    - apply Qmult_le_0_compat; [apply Qabs_nonneg | lra].
    - apply Qlt_bool_true in Hs. apply Qmult_le_0_compat; [|lra].
      apply Qle_shift_div_l; [exact Hs|]. rewrite Qmult_0_l. exact (Hv k v Hp). }
  assert (Hprod : 0 <= spec_sub_index k c v * num c "weight")
    by (apply Qmult_le_0_compat; assumption).
  lra.
Qed.

Lemma ylim_top_bounds (w : Q) :
  0 <= w -> w <= ylim_top w /\ 350 <= ylim_top w.
Proof.
  intros Hw. unfold ylim_top, py_max, Qlt_bool.
  destruct (Qle_bool (w * 1.2) 350) eqn:E; simpl.
  - apply Qle_bool_iff in E. split; lra.
  - apply Qle_bool_false_lt in E. split; lra.
Qed.

(** The single-sample form always yields a WQI on a shipped table. *)
Lemma form_scores (water_body : string) (input : string -> Q) :
  exists w,
    calculate_wqi (form_data (select_parameters water_body) input)
      (select_parameters water_body) = Ok (Some w, classify_wqi w) /\
    w == participating_sum (form_data (select_parameters water_body) input)
           (select_parameters water_body).
Proof.
  destruct (select_parameters_ok water_body) as (Hwf & Hpos & _ & Hne).
  set (ps := select_parameters water_body) in *.
  set (d := form_data ps input).
  destruct (calculate_wqi_wf d ps Hwf) as (S & W & _ & HS & HW & Hc).
  destruct (participating_weight_pos d ps Hpos) as [_ Hlt].
  destruct (map fst ps) as [|k0 ks] eqn:Hkeys; [contradiction|].
  assert (Hw : 0 < participating_weight d ps).
  { apply Hlt. exists k0. split; [left; reflexivity|].
    unfold d. rewrite present_form_data, Hkeys.
    rewrite existsb_eqb_In by (left; reflexivity). discriminate. }
  exists S. split; [|exact HS].
  rewrite Hc. destruct (Qeq_bool W 0) eqn:E; [|reflexivity].
  apply Qeq_bool_iff in E. lra.
Qed.

(** X1: on the table of any water body the app can select, scoring a
    sample never raises, and it gives "No valid data provided" exactly when
    no parameter of that table has a present value in the sample. *)
Theorem selected_table_scoring (water_body : string) (d : sample) :
  exists r, calculate_wqi d (select_parameters water_body) = Ok r /\
    (r = (None, "No valid data provided") <->
     forall k, In k (map fst (select_parameters water_body)) -> present d k = None).
Proof.
  destruct (select_parameters_ok water_body) as (Hwf & Hpos & _ & _).
  apply no_valid_data_iff_absent; assumption.
Qed.

(** X2: on the single-sample tab every parameter of the selected table
    gets the widget's number, so [calculate_wqi] always returns a WQI (the
    weighted sum over all parameters of the table) and a class label: the
    "No valid data provided" branch (lines 186-187) is never taken there. *)
Theorem single_sample_always_scored (water_body : string) (input : string -> Q) :
  (forall k, In k (map fst (select_parameters water_body)) ->
     present (form_data (select_parameters water_body) input) k = Some (input k)) /\
  exists w,
    calculate_wqi (form_data (select_parameters water_body) input)
      (select_parameters water_body) = Ok (Some w, classify_wqi w) /\
    w == participating_sum (form_data (select_parameters water_body) input)
           (select_parameters water_body).
Proof.
  split; [|apply form_scores].
  intros k Hk. rewrite present_form_data, existsb_eqb_In by exact Hk. reflexivity.
Qed.

(** X3: with the widgets' bounds respected (every number [>= 0]), the
    single-sample WQI is [>= 0] and lies within the chart's y-range
    [0, max(350, wqi * 1.2)], whose top is at least 350. *)
Theorem single_sample_chart_bounds (water_body : string) (input : string -> Q) :
  (forall k, widget_ok k (input k) = true) ->
  exists w,
    calculate_wqi (form_data (select_parameters water_body) input)
      (select_parameters water_body) = Ok (Some w, classify_wqi w) /\
    0 <= w /\ w <= ylim_top w /\ 350 <= ylim_top w.
Proof.
  intros Hin.
  destruct (form_scores water_body input) as (w & Hc & Hw).
  destruct (select_parameters_ok water_body) as (_ & _ & Hsc & _).
  assert (H0 : 0 <= w).
  { rewrite Hw. apply participating_sum_nonneg; [exact Hsc|].
    intros k v Hp. rewrite present_form_data in Hp.
    destruct (existsb (String.eqb k) (map fst (select_parameters water_body)));
      [|discriminate].
    injection Hp as <-. specialize (Hin k). unfold widget_ok in Hin.
    apply andb_true_iff in Hin as [H _]. apply Qle_bool_iff. exact H. }
  exists w. split; [exact Hc|]. split; [exact H0|]. apply ylim_top_bounds. exact H0.
Qed.

Lemma single_sample_chart_bounds_witness :
  exists w,
    calculate_wqi (form_data (select_parameters "Springs")
                     (fun k => if String.eqb k "pH" then 7 else 1))
      (select_parameters "Springs") = Ok (Some w, classify_wqi w) /\
    0 <= w /\ w <= ylim_top w /\ 350 <= ylim_top w.
Proof.
  apply single_sample_chart_bounds.
  intros k. unfold widget_ok. destruct (String.eqb k "pH"); reflexivity.
Defined.

Lemma classify_rank_le (q1 q2 : Q) :
  q1 <= q2 -> (class_rank (classify_wqi q1) <= class_rank (classify_wqi q2))%nat.
Proof.
  intros Hle. unfold classify_wqi, Qlt_bool.
  destruct (Qle_bool 50 q1) eqn:A1, (Qle_bool q1 100) eqn:B1,
           (Qle_bool q1 200) eqn:C1, (Qle_bool q1 300) eqn:D1,
           (Qle_bool 50 q2) eqn:A2, (Qle_bool q2 100) eqn:B2,
           (Qle_bool q2 200) eqn:C2, (Qle_bool q2 300) eqn:D2;
    simpl; qle_to_prop; first [exfalso; lra | vm_compute; lia].
Qed.

(** X4: the colour of the single-sample bar follows the class label:
    green for "Excellent water", yellow for "Good water", red for "Poor
    water" and "Very poor water", dark red for "Unsuitable for drinking". *)
Theorem bar_color_matches_class (wqi : Q) :
  (classify_wqi wqi = "Excellent water" -> bar_color wqi = "#2ecc71") /\
  (classify_wqi wqi = "Good water" -> bar_color wqi = "#f1c40f") /\
  (classify_wqi wqi = "Poor water" \/ classify_wqi wqi = "Very poor water" ->
     bar_color wqi = "#e74c3c") /\
  (classify_wqi wqi = "Unsuitable for drinking" -> bar_color wqi = "#c0392b").
Proof.
  unfold classify_wqi, bar_color, Qlt_bool.
  destruct (Qle_bool 50 wqi) eqn:A, (Qle_bool wqi 100) eqn:B,
           (Qle_bool wqi 200) eqn:C, (Qle_bool wqi 300) eqn:D; simpl;
    repeat split; intros H; try reflexivity;
    try (destruct H as [H|H]); try discriminate; try reflexivity;
    exfalso; qle_to_prop; lra.
Qed.

(** X5: [classify_wqi] is monotone: a higher score never gets a better
    label, in the order Excellent, Good, Poor, Very poor, Unsuitable. *)
Theorem classify_wqi_monotone (q1 q2 : Q) :
  q1 <= q2 -> (class_rank (classify_wqi q1) <= class_rank (classify_wqi q2))%nat.
Proof. apply classify_rank_le. Qed.

Lemma classify_wqi_monotone_witness :
  (class_rank (classify_wqi 49) <= class_rank (classify_wqi 150))%nat.
Proof. apply classify_wqi_monotone. vm_compute. discriminate. Defined.

Lemma spec_sub_index_mono (k : string) (c : config) (v1 v2 : Q) :
  (String.eqb k "pH" = false -> 0 < num c "standard") ->
  (if String.eqb k "pH" then Qabs (v1 - 7) <= Qabs (v2 - 7) else v1 <= v2) ->
  spec_sub_index k c v1 <= spec_sub_index k c v2.
Proof.
  intros Hs Hv. unfold spec_sub_index.
  destruct (String.eqb k "pH").
  - apply Qmult_le_compat_r; [|lra]. unfold Qdiv. rewrite !Qabs_Qmult.
    apply Qmult_le_compat_r; [exact Hv | apply Qabs_nonneg].
  - apply Qmult_le_compat_r; [|lra]. unfold Qdiv.
    apply Qmult_le_compat_r; [exact Hv|].
    apply Qinv_le_0_compat. specialize (Hs eq_refl). lra.
Qed.

Lemma participating_mono (d1 d2 : sample) (ps : params) :
  scales_ok ps = true -> dominated ps d1 d2 = true ->
  participating_sum d1 ps <= participating_sum d2 ps /\
  participating_weight d1 ps = participating_weight d2 ps.
Proof.
  induction ps as [|[k c] r IH]; intros Hsc Hdom;
    cbn [participating_sum participating_weight]; [split; [lra | reflexivity]|].
  simpl in Hsc, Hdom. apply andb_true_iff in Hsc as [He Hr].
  apply andb_true_iff in Hdom as [Hk Hdr]. cbn [fst] in Hk.
  apply andb_true_iff in He as [Hw Hs]. apply Qle_bool_iff in Hw.
  destruct (IH Hr Hdr) as [IHs IHw].
  destruct (present d1 k) as [v1|], (present d2 k) as [v2|]; try discriminate.
  - split; [|rewrite IHw; reflexivity].
    assert (Hm : spec_sub_index k c v1 <= spec_sub_index k c v2).
    { apply spec_sub_index_mono.
      - intros Hn. rewrite Hn in Hs. apply Qlt_bool_true. exact Hs.
      - destruct (String.eqb k "pH"); apply Qle_bool_iff; exact Hk. }
    assert (Hm' : spec_sub_index k c v1 * num c "weight" <=
                  spec_sub_index k c v2 * num c "weight")
      by (apply Qmult_le_compat_r; assumption).
    lra.
  - split; assumption.
Qed.

(** X6: on a well-formed table with nonnegative weights and positive
    standards (pH 'high' above 7), [calculate_wqi] is monotone in the
    measurements: if [d2] has the same parameters present as [d1], pH at
    least as far from 7 and every other value at least as high, then either
    both samples get "No valid data provided" or both get a WQI, [d2]'s
    being at least [d1]'s and its label no better. *)
Theorem calculate_wqi_monotone (ps : params) (d1 d2 : sample) :
  wf_params ps = true -> scales_ok ps = true -> dominated ps d1 d2 = true ->
  (calculate_wqi d1 ps = Ok (None, "No valid data provided") /\
   calculate_wqi d2 ps = Ok (None, "No valid data provided")) \/
  exists w1 w2,
    calculate_wqi d1 ps = Ok (Some w1, classify_wqi w1) /\
    calculate_wqi d2 ps = Ok (Some w2, classify_wqi w2) /\
    w1 <= w2 /\ (class_rank (classify_wqi w1) <= class_rank (classify_wqi w2))%nat.
Proof.
  intros Hwf Hsc Hdom.
  destruct (participating_mono d1 d2 ps Hsc Hdom) as [Hs Hw].
  destruct (calculate_wqi_wf d1 ps Hwf) as (S1 & W1 & _ & HS1 & HW1 & Hc1).
  destruct (calculate_wqi_wf d2 ps Hwf) as (S2 & W2 & _ & HS2 & HW2 & Hc2).
  rewrite Hc1, Hc2.
  destruct (Qeq_bool W1 0) eqn:E1, (Qeq_bool W2 0) eqn:E2.
  - left. split; reflexivity.
  - exfalso. apply Qeq_bool_iff in E1. apply Qeq_bool_false_neq in E2.
    apply E2. rewrite HW2, <- Hw. lra.
  - exfalso. apply Qeq_bool_iff in E2. apply Qeq_bool_false_neq in E1.
    apply E1. rewrite HW1, Hw. lra.
  - right. exists S1, S2. split; [reflexivity|]. split; [reflexivity|].
    assert (H12 : S1 <= S2) by lra.
    split; [exact H12 | apply classify_rank_le; exact H12].
Qed.

Lemma calculate_wqi_monotone_witness :
  (calculate_wqi [("pH", Some 8); ("Lead [µg/l Pb]", Some 5)] SPRINGS_PARAMS =
     Ok (None, "No valid data provided") /\
   calculate_wqi [("pH", Some 6); ("Lead [µg/l Pb]", Some 12)] SPRINGS_PARAMS =
     Ok (None, "No valid data provided")) \/
  exists w1 w2,
    calculate_wqi [("pH", Some 8); ("Lead [µg/l Pb]", Some 5)] SPRINGS_PARAMS =
      Ok (Some w1, classify_wqi w1) /\
    calculate_wqi [("pH", Some 6); ("Lead [µg/l Pb]", Some 12)] SPRINGS_PARAMS =
      Ok (Some w2, classify_wqi w2) /\
    w1 <= w2 /\ (class_rank (classify_wqi w1) <= class_rank (classify_wqi w2))%nat.
Proof.
  apply calculate_wqi_monotone; vm_compute; reflexivity.
Defined.

(** X7: the pH sub-index is symmetric about 7 and never negative, and it
    is 0 exactly at pH 7, for any pH config with a ['high'] other than 7. *)
Theorem pH_sub_index_symmetric (c : config) (h x : Q) :
  get_opt c "high" = Some h -> ~ h == 7 ->
  exists a b,
    calculate_sub_index (Some (7 + x)) "pH" c = Ok (Some a) /\
    calculate_sub_index (Some (7 - x)) "pH" c = Ok (Some b) /\
    a == b /\ 0 <= a /\ (a == 0 <-> x == 0).
Proof.
  intros Hh H7.
  assert (Hok : sub_index_ok "pH" c = true).
  { unfold sub_index_ok. simpl. rewrite Hh. apply negb_true_iff.
    destruct (Qeq_bool h 7) eqn:E; [|reflexivity].
    apply Qeq_bool_iff in E. contradiction. }
  assert (Hd : ~ h - 7 == 0) by (intros H; apply H7; lra).
  exists (spec_sub_index "pH" c (7 + x)), (spec_sub_index "pH" c (7 - x)).
  split; [apply calculate_sub_index_ok; exact Hok|].
  split; [apply calculate_sub_index_ok; exact Hok|].
  unfold spec_sub_index, num. rewrite String.eqb_refl, Hh.
  assert (E1 : (7 + x - 7) / (h - 7) == x / (h - 7)) by (field; exact Hd).
  assert (E2 : (7 - x - 7) / (h - 7) == - (x / (h - 7))) by (field; exact Hd).
  rewrite E1, E2, Qabs_opp.
  split; [reflexivity|]. split.
  - apply Qmult_le_0_compat; [apply Qabs_nonneg | lra].
  - split.
    + intros Hz. assert (Ha : Qabs (x / (h - 7)) == 0) by lra.
      assert (Hle : Qabs (x / (h - 7)) <= 0) by lra.
      apply Qabs_Qle_condition in Hle.
      assert (Hq : x / (h - 7) == 0) by lra.
      setoid_replace x with (x / (h - 7) * (h - 7)) by (field; exact Hd).
      rewrite Hq. ring.
    + intros Hx. rewrite Hx. unfold Qdiv. rewrite Qmult_0_l. reflexivity.
Qed.

Lemma pH_sub_index_symmetric_witness :
  exists a b,
    calculate_sub_index (Some (7 + 1.5)) "pH" [("weight", 0.076599); ("low", 6.5); ("high", 9.5)] =
      Ok (Some a) /\
    calculate_sub_index (Some (7 - 1.5)) "pH" [("weight", 0.076599); ("low", 6.5); ("high", 9.5)] =
      Ok (Some b) /\
    a == b /\ 0 <= a /\ (a == 0 <-> 1.5 == 0).
Proof.
  apply (pH_sub_index_symmetric _ 9.5); [reflexivity | vm_compute; discriminate].
Defined.

(** The parameters of [ks] that are not yet columns of [cols], in order. *)
Lemma filter_missing_app_other (cols : list string) (k : string) (ks : list string) :
  ~ In k ks ->
  filter (fun x => negb (existsb (String.eqb x) (cols ++ [k])%list)) ks =
  filter (fun x => negb (existsb (String.eqb x) cols)) ks.
Proof.
  intros Hk. apply filter_ext_in. intros x Hx.
  rewrite existsb_app. simpl.
  destruct (String.eqb x k) eqn:E.
  - apply String.eqb_eq in E. subst x. contradiction.
  - rewrite orb_false_r. reflexivity.
Qed.

(** X8: the batch tab's column filling adds, after the uploaded columns
    and in the table's order, exactly the parameters that are not columns
    yet, and pads every row with one NaN per added column; the uploaded
    cells are untouched. *)
Theorem add_missing_columns_shape (ks : list string) (df : frame) :
  NoDup ks ->
  columns (add_missing_columns ks df) =
    (columns df ++ filter (fun k => negb (existsb (String.eqb k) (columns df))) ks)%list /\
  rows (add_missing_columns ks df) =
    map (fun row => row ++ repeat None
           (length (filter (fun k => negb (existsb (String.eqb k) (columns df))) ks)))%list
        (rows df) /\
  (forall k, In k ks -> In k (columns (add_missing_columns ks df))).
Proof.
  revert df. induction ks as [|k ks IH]; intros df Hnd; cbn [add_missing_columns filter].
  - split; [rewrite app_nil_r; reflexivity|]. split; [|intros k []].
    simpl. rewrite <- (map_id (rows df)) at 1. apply map_ext. intros row.
    rewrite app_nil_r. reflexivity.
  - apply NoDup_cons_iff in Hnd as [Hk Hnd].
    destruct (existsb (String.eqb k) (columns df)) eqn:E; simpl.
    + destruct (IH df Hnd) as (Hc & Hr & Hin). split; [exact Hc|]. split; [exact Hr|].
      intros k' [<- | Hk']; [|apply Hin; exact Hk'].
      rewrite Hc. apply in_or_app. left.
      apply existsb_exists in E as (x & Hx & Ex). apply String.eqb_eq in Ex.
      subst x. exact Hx.
    + destruct (IH (mk_frame (columns df ++ [k])%list
                     (map (fun row => row ++ [None])%list (rows df))) Hnd)
        as (Hc & Hr & Hin).
      simpl in Hc, Hr. rewrite filter_missing_app_other in Hc, Hr by exact Hk.
      split; [|split].
      * rewrite Hc, <- app_assoc. reflexivity.
      * rewrite Hr, map_map. apply map_ext. intros row.
        rewrite <- app_assoc. reflexivity.
      * intros k' [<- | Hk']; [|apply Hin; exact Hk'].
        rewrite Hc. apply in_or_app. left. apply in_or_app. right. left. reflexivity.
Qed.

Lemma add_missing_columns_shape_witness :
  columns (add_missing_columns ["pH"; "Lead [µg/l Pb]"] batch_example) =
    ["Location"; "pH"; "Lead [µg/l Pb]"] /\
  rows (add_missing_columns ["pH"; "Lead [µg/l Pb]"] batch_example) =
    [[Some 1; Some 7; None]; [Some 2; Some 9.5; None]].
Proof.
  assert (Hnd : NoDup ["pH"; "Lead [µg/l Pb]"]).
  { constructor; [intros [H|[]]; discriminate|]. constructor; [intros []|constructor]. }
  destruct (add_missing_columns_shape _ batch_example Hnd) as (Hc & Hr & _).
  split; [rewrite Hc | rewrite Hr]; reflexivity.
Defined.

Lemma fold_insert_key_fresh (ks extra : list string) :
  NoDup extra -> (forall k, In k extra -> ~ In k ks) ->
  fold_left insert_key extra ks = (ks ++ extra)%list.
Proof.
  revert ks. induction extra as [|k extra IH]; intros ks Hnd Hfr; simpl.
  - rewrite app_nil_r. reflexivity.
  - apply NoDup_cons_iff in Hnd as [Hk Hnd].
    unfold insert_key at 2.
    destruct (existsb (String.eqb k) ks) eqn:E.
    + exfalso. apply (Hfr k (or_introl eq_refl)).
      apply existsb_exists in E as (x & Hx & Ex). apply String.eqb_eq in Ex.
      subst x. exact Hx.
    + rewrite IH; [rewrite <- app_assoc; reflexivity | exact Hnd|].
      intros k' Hk' Hin. apply in_app_or in Hin as [Hin | [<- | []]].
      * exact (Hfr k' (or_intror Hk') Hin).
      * exact (Hk Hk').
Qed.

(** X9: when neither the upload nor the table has a "WQI" or "Class"
    column, the exported batch table has the uploaded columns in their
    order, then the table's parameters missing from the upload in table
    order, then "WQI" and "Class". *)
Theorem batch_output_columns_layout (df : frame) (ps : params) :
  NoDup (map fst ps) ->
  ~ In "WQI" (columns df) -> ~ In "Class" (columns df) ->
  ~ In "WQI" (map fst ps) -> ~ In "Class" (map fst ps) ->
  batch_output_columns df ps =
    (columns df ++
     filter (fun k => negb (existsb (String.eqb k) (columns df))) (map fst ps) ++
     ["WQI"; "Class"])%list.
Proof.
  intros Hnd W1 C1 W2 C2. unfold batch_output_columns.
  destruct (add_missing_columns_shape (map fst ps) df Hnd) as (Hc & _ & _).
  rewrite Hc, app_assoc. apply fold_insert_key_fresh.
  - constructor; [intros [H|[]]; discriminate|]. constructor; [intros []|constructor].
  - intros k Hk Hin. apply in_app_or in Hin as [Hin | Hin].
    + destruct Hk as [<- | [<- | []]]; contradiction.
    + apply filter_In in Hin as [Hin _].
      destruct Hk as [<- | [<- | []]]; contradiction.
Qed.

Lemma batch_output_columns_layout_witness :
  batch_output_columns batch_example zero_weight_params =
    ["Location"; "pH"; "Lead [µg/l Pb]"; "WQI"; "Class"].
Proof.
  rewrite batch_output_columns_layout.
  - reflexivity.
  - constructor; [intros []|constructor].
  - intros [H|[H|[]]]; discriminate.
  - intros [H|[H|[]]]; discriminate.
  - intros [H|[]]; discriminate.
  - intros [H|[]]; discriminate.
Defined.

Lemma map_fst_dict_set (d : sample) (k : string) (v : option Q) :
  map fst (dict_set d k v) = insert_key (map fst d) k.
Proof.
  unfold dict_set, insert_key.
  assert (Hex : existsb (fun e => String.eqb (fst e) k) d =
                existsb (String.eqb k) (map fst d)).
  { induction d as [|[k' v'] r IH]; simpl; [reflexivity|].
    rewrite IH, String.eqb_sym. reflexivity. }
  rewrite Hex. destruct (existsb (String.eqb k) (map fst d)).
  - rewrite map_map. apply map_ext. intros [k' v']. simpl.
    destruct (String.eqb k' k) eqn:E; simpl; [apply String.eqb_eq in E; congruence | reflexivity].
  - rewrite map_app. reflexivity.
Qed.

Lemma map_fst_form_data_acc (ps : params) (input : string -> Q) (d : sample) :
  map fst (fold_left (fun d e => dict_set d (fst e) (Some (input (fst e)))) ps d) =
  fold_left insert_key (map fst ps) (map fst d).
Proof.
  revert d. induction ps as [|e r IH]; intros d; simpl; [reflexivity|].
  rewrite IH, map_fst_dict_set. reflexivity.
Qed.

(** X10: the CSV offered on the single-sample tab has the columns
    "Location", "WQI", "Class", then one column per parameter of the
    selected table, in the table's order, whatever the entered numbers. *)
Theorem single_sample_csv_columns (water_body : string) (input : string -> Q) :
  result_columns (form_data (select_parameters water_body) input) =
    (["Location"; "WQI"; "Class"] ++ map fst (select_parameters water_body))%list.
Proof.
  unfold result_columns, form_data. rewrite map_fst_form_data_acc. simpl.
  unfold select_parameters.
  destruct (String.eqb water_body "Springs"); [|destruct (String.eqb water_body "Wells")];
    vm_compute; reflexivity.
Qed.


